(** * The sales ETL script (src/etl/etl.py)

    A shallow embedding of the transformation stage, [transformar_dados]
    with its inner function [formatar_documento], and of the load:
    [criar_banco_dados], [criar_tabelas], [carregar_dados] and [main], over
    a model of the two tables of the database.

    Data model.
    - A Python [str] is a sequence of Unicode code points ([pystr]); [len]
      and slicing count code points.
    - A cell of a text column is [NaN], [None] or a string ([cell]).
    - A DataFrame is the list of its rows in index order; a column
      assignment [df[c] = f(df)] rewrites that column in every row
      ([assign]).  The derived columns are optional fields of the row: they
      are absent from a frame read from the spreadsheet and present in a
      frame that went through the transformation.
    - [valor] is a binary64 number, [data_venda] a timestamp or [NaT].

    Library functions.  The Unicode tables behind [str.upper], [str.lower]
    and [str.isdigit], and the rounding of [Series.round], belong to CPython
    and numpy, not to this repository: they are parameters of the
    development.  The clock read by [datetime.now()] is the explicit
    argument [hoje].

    Limits of the model.  The columns are typed as the data model of the
    script has them: text columns hold strings or missing values, [valor]
    is a float column and [data_venda] a datetime column; a frame whose
    columns have other types (on which the [.str] or [.dt] accessors would
    raise) is outside the model.  [DataFrame.apply(..., axis=1)] is the
    row-wise map also on a frame without rows, where what pandas returns
    depends on its version. *)

From stdpp Require Import gmap.
From Stdlib Require Import String Ascii.
From Stdlib Require Import List NArith ZArith Bool Lia Floats.
Import ListNotations.

Local Open Scope N_scope.

(** ** Strings *)

Definition pystr := list N.

(** An ASCII literal of the source as a sequence of code points. *)
Definition lit (s : string) : pystr :=
  List.map N_of_ascii (list_ascii_of_string s).

Definition FISICA : pystr := Eval cbv in lit "FISICA".
Definition JURIDICA : pystr := Eval cbv in lit "JURIDICA".
Definition email_padrao : pystr := Eval cbv in lit "email".
(** 'CONCLUÍDA': the seventh character is U+00CD. *)
Definition CONCLUIDA : pystr :=
  Eval cbv in (lit "CONCLU" ++ [205] ++ lit "DA")%list.

Definition ponto : N := 46.
Definition hifen : N := 45.
Definition barra : N := 47.

Fixpoint pystr_eqb (a b : pystr) : bool :=
  match a, b with
  | [], [] => true
  | x :: a', y :: b' => (x =? y) && pystr_eqb a' b'
  | _, _ => false
  end.

(** [s[i:j]] for [0 <= i <= j]; like Python's, the slice is clamped to the
    string. *)
Definition slice (i j : nat) (s : pystr) : pystr :=
  firstn (j - i) (skipn i s).

(** ** Cells of a text column *)

Inductive cell : Type :=
| NaN
| PyNone
| Str (s : pystr).

(** [pd.isna] *)
Definition isna (c : cell) : bool :=
  match c with
  | NaN | PyNone => true
  | Str _ => false
  end.

(** [c is None] *)
Definition is_none (c : cell) : bool :=
  match c with
  | PyNone => true
  | _ => false
  end.

(** [c == s] for a string literal [s] *)
Definition cell_eq_lit (c : cell) (s : pystr) : bool :=
  match c with
  | Str t => pystr_eqb t s
  | _ => false
  end.

Definition repr_nan : pystr := Eval cbv in lit "nan".
Definition repr_None : pystr := Eval cbv in lit "None".

(** [str(c)] *)
Definition str (c : cell) : pystr :=
  match c with
  | NaN => repr_nan
  | PyNone => repr_None
  | Str s => s
  end.

(** [Series.fillna(v)], cell by cell *)
Definition fillna (v : pystr) (c : cell) : cell :=
  if isna c then Str v else c.

(** ** Dates and numbers *)

Record date : Type := mk_date { year : Z; month : Z; day : Z }.

Inductive datetime : Type :=
| NaT
| Timestamp (d : date).

(** A cell of a numeric column that may hold NaN. *)
Inductive intcell : Type :=
| IntNaN
| Int (z : Z).

Definition is_leap (y : Z) : bool :=
  ((y mod 4 =? 0) && negb (y mod 100 =? 0) || (y mod 400 =? 0))%Z.

Definition days_in_month (y m : Z) : Z :=
  (if m =? 2 then (if is_leap y then 29 else 28)
   else if (m =? 4) || (m =? 6) || (m =? 9) || (m =? 11) then 30
   else 31)%Z.

(** The dates a timestamp can hold. *)
Definition valid_date (d : date) : bool :=
  ((1 <=? month d) && (month d <=? 12) &&
   (1 <=? day d) && (day d <=? days_in_month (year d) (month d)))%Z.

(** [Series.dt.month] and [Series.dt.year], cell by cell: NaT gives NaN. *)
Definition dt_month (t : datetime) : intcell :=
  match t with
  | NaT => IntNaN
  | Timestamp d => Int (month d)
  end.

Definition dt_year (t : datetime) : intcell :=
  match t with
  | NaT => IntNaN
  | Timestamp d => Int (year d)
  end.

(** ** Rows of the two frames *)

Record cliente : Type := mk_cliente {
  id_cliente : Z;
  nome : cell;
  email : cell;
  documento : cell;
  tipo_pessoa : cell;
  tipo_contato : cell;
  documento_formatado : option cell;
  data_cadastro : option pystr
}.

Record venda : Type := mk_venda {
  id_venda : Z;
  venda_id_cliente : Z;
  data_venda : datetime;
  valor : float;
  mes_venda : option intcell;
  ano_venda : option intcell;
  status_venda : option pystr
}.

Definition set_tipo_pessoa (v : cell) (r : cliente) : cliente :=
  mk_cliente (id_cliente r) (nome r) (email r) (documento r) v
             (tipo_contato r) (documento_formatado r) (data_cadastro r).

Definition set_tipo_contato (v : cell) (r : cliente) : cliente :=
  mk_cliente (id_cliente r) (nome r) (email r) (documento r) (tipo_pessoa r)
             v (documento_formatado r) (data_cadastro r).

Definition set_documento_formatado (v : cell) (r : cliente) : cliente :=
  mk_cliente (id_cliente r) (nome r) (email r) (documento r) (tipo_pessoa r)
             (tipo_contato r) (Some v) (data_cadastro r).

Definition set_data_cadastro (v : pystr) (r : cliente) : cliente :=
  mk_cliente (id_cliente r) (nome r) (email r) (documento r) (tipo_pessoa r)
             (tipo_contato r) (documento_formatado r) (Some v).

Definition set_valor (v : float) (r : venda) : venda :=
  mk_venda (id_venda r) (venda_id_cliente r) (data_venda r) v
           (mes_venda r) (ano_venda r) (status_venda r).

Definition set_mes_venda (v : intcell) (r : venda) : venda :=
  mk_venda (id_venda r) (venda_id_cliente r) (data_venda r) (valor r)
           (Some v) (ano_venda r) (status_venda r).

Definition set_ano_venda (v : intcell) (r : venda) : venda :=
  mk_venda (id_venda r) (venda_id_cliente r) (data_venda r) (valor r)
           (mes_venda r) (Some v) (status_venda r).

Definition set_status_venda (v : pystr) (r : venda) : venda :=
  mk_venda (id_venda r) (venda_id_cliente r) (data_venda r) (valor r)
           (mes_venda r) (ano_venda r) (Some v).

(** [df[c] = f(df)]: the column written by [set] takes, in every row, the
    value [f] computes from that row. *)
Definition assign {R B : Type} (set : B -> R -> R) (f : R -> B)
    (df : list R) : list R :=
  List.map (fun r => set (f r) r) df.

(** ** The transformation *)

Section Transformacao.

(** [str.upper] and [str.lower] on a string, [str.isdigit] on a
    one-character string, and [Series.round(2)] on one amount. *)
Variable upper : pystr -> pystr.
Variable lower : pystr -> pystr.
Variable isdigit : N -> bool.
Variable round2 : float -> float.

(** [Series.str.upper()] and [Series.str.lower()], cell by cell: a missing
    value comes out as NaN. *)
Definition str_upper (c : cell) : cell :=
  match c with
  | Str s => Str (upper s)
  | _ => NaN
  end.

Definition str_lower (c : cell) : cell :=
  match c with
  | Str s => Str (lower s)
  | _ => NaN
  end.

Definition formatar_documento (doc tipo : cell) : cell :=
  if isna doc || is_none doc || cell_eq_lit doc [] then PyNone
  else
    let doc_limpo := filter isdigit (str doc) in
    if cell_eq_lit tipo FISICA && (length doc_limpo =? 11)%nat then
      Str (firstn 3 doc_limpo ++ [ponto] ++ slice 3 6 doc_limpo ++ [ponto]
           ++ slice 6 9 doc_limpo ++ [hifen] ++ skipn 9 doc_limpo)%list
    else if cell_eq_lit tipo JURIDICA && (length doc_limpo =? 14)%nat then
      Str (firstn 2 doc_limpo ++ [ponto] ++ slice 2 5 doc_limpo ++ [ponto]
           ++ slice 5 8 doc_limpo ++ [barra] ++ slice 8 12 doc_limpo
           ++ [hifen] ++ skipn 12 doc_limpo)%list
    else Str doc_limpo.

Definition transformar_dados (hoje : pystr)
    (df_clientes : list cliente) (df_vendas : list venda)
    : list cliente * list venda :=
  let clientes := df_clientes in
  let vendas := df_vendas in
  let clientes :=
    assign set_tipo_pessoa (fun r => fillna FISICA (tipo_pessoa r)) clientes in
  let clientes :=
    assign set_tipo_pessoa (fun r => str_upper (tipo_pessoa r)) clientes in
  let clientes :=
    assign set_tipo_contato
           (fun r => fillna email_padrao (tipo_contato r)) clientes in
  let clientes :=
    assign set_tipo_contato (fun r => str_lower (tipo_contato r)) clientes in
  let clientes :=
    assign set_documento_formatado
           (fun r => formatar_documento (documento r) (tipo_pessoa r))
           clientes in
  let clientes := assign set_data_cadastro (fun _ => hoje) clientes in
  let vendas := assign set_valor (fun r => round2 (valor r)) vendas in
  let vendas :=
    assign set_mes_venda (fun r => dt_month (data_venda r)) vendas in
  let vendas :=
    assign set_ano_venda (fun r => dt_year (data_venda r)) vendas in
  let vendas := assign set_status_venda (fun _ => CONCLUIDA) vendas in
  (clientes, vendas).

End Transformacao.

(** ** An instance of the library parameters

    The case and digit tables restricted to ASCII (code points above 127 are
    left alone and are no digits): on ASCII text these functions are
    CPython's.  The rounding is the one numpy documents for [round(a, 2)],
    [rint(a * 100) / 100], on binary64.  The instance serves to run the
    model on concrete frames. *)

Definition ascii_upper_cp (c : N) : N :=
  if (97 <=? c) && (c <=? 122) then c - 32 else c.

Definition ascii_lower_cp (c : N) : N :=
  if (65 <=? c) && (c <=? 90) then c + 32 else c.

Definition upper_ascii (s : pystr) : pystr := List.map ascii_upper_cp s.
Definition lower_ascii (s : pystr) : pystr := List.map ascii_lower_cp s.

Definition isdigit_ascii (c : N) : bool := (48 <=? c) && (c <=? 57).

Definition is_ascii (s : pystr) : bool := forallb (fun c => c <? 128) s.

Definition two52 : float := 0x1p52%float.

(** Round to the nearest integer, ties to even, keeping the sign. *)
Definition rint (x : float) : float :=
  let a := PrimFloat.abs x in
  if PrimFloat.ltb a two52 then
    let r := PrimFloat.sub (PrimFloat.add a two52) two52 in
    if get_sign x then PrimFloat.opp r else r
  else x.

Definition np_round2 (x : float) : float :=
  PrimFloat.div (rint (PrimFloat.mul x 100%float)) 100%float.

(** Non-date fields of two person rows agree. *)
Definition same_non_date_fields (a b : cliente) : Prop :=
  id_cliente a = id_cliente b /\ nome a = nome b /\ email a = email b /\
  documento a = documento b /\ tipo_pessoa a = tipo_pessoa b /\
  tipo_contato a = tipo_contato b /\
  documento_formatado a = documento_formatado b.

(** The row [transformar_dados] leaves in place of the person row [r]. *)
Definition cliente_normalizado (upper lower : pystr -> pystr)
    (isdigit : N -> bool) (hoje : pystr) (r : cliente) : cliente :=
  let tipo := str_upper upper (fillna FISICA (tipo_pessoa r)) in
  mk_cliente (id_cliente r) (nome r) (email r) (documento r) tipo
             (str_lower lower (fillna email_padrao (tipo_contato r)))
             (Some (formatar_documento isdigit (documento r) tipo))
             (Some hoje).

(** The row [transformar_dados] leaves in place of the transaction row [v]. *)
Definition venda_normalizada (round2 : float -> float) (v : venda) : venda :=
  mk_venda (id_venda v) (venda_id_cliente v) (data_venda v)
           (round2 (valor v))
           (Some (dt_month (data_venda v))) (Some (dt_year (data_venda v)))
           (Some CONCLUIDA).

(** ** Sample frames *)

Definition hoje_ex : pystr := Eval cbv in lit "2024-03-15".
Definition outro_dia : pystr := Eval cbv in lit "2024-03-16".

Definition ana : cliente :=
  mk_cliente 1 (Str (lit "Ana")) (Str (lit "a@x.com"))
             (Str (lit "12345678901")) NaN NaN None None.

Definition loja : cliente :=
  mk_cliente 2 (Str (lit "Loja")) (Str (lit "loja@x.com"))
             (Str (lit "12.345.678/0001-95")) (Str (lit "juridica"))
             (Str (lit "Telefone")) None None.

(** A row whose person-type cell holds the empty string. *)
Definition sem_tipo : cliente :=
  mk_cliente 3 (Str (lit "Rui")) (Str (lit "rui@x.com"))
             (Str (lit "---")) (Str []) (Str (lit "email")) None None.

(** 2024-03-15, amount 99.999 (its nearest binary64 number). *)
Definition venda_10 : venda :=
  mk_venda 10 1 (Timestamp (mk_date 2024 3 15)) 0x1.8ffef9db22d0ep+6%float
           None None None.

(** No date, amount 1234.5. *)
Definition venda_11 : venda :=
  mk_venda 11 2 NaT 1234.5%float None None None.

(** ** The database

    A table is the finite map from its primary key to the frame row last
    written under that key (what PostgreSQL stores is its conversion of the
    values of that row).  A table of the database exists or not.  The
    tables, when they exist, have the schema [criar_tabelas] gives them:
    primary keys [id_cliente] and [id_venda], and the foreign key from
    [vendas.id_cliente] to [clientes].

    What PostgreSQL checks on the values of one row alone (adaptation of
    the Python values, NOT NULL, VARCHAR lengths, NUMERIC range, DATE
    syntax) is a parameter: [aceita_cliente] and [aceita_venda].  What
    depends on the tables is modelled: the conflict on the primary key and
    the foreign key.  Reaching the server is taken to succeed. *)

Record banco : Type := mk_banco {
  tb_clientes : option (gmap Z cliente);
  tb_vendas : option (gmap Z venda)
}.

(** Exit status of the process: 0 or 1. *)
Inductive saida : Type :=
| Sucesso
| Falha.

(** The server holds the database 'loja_db' or not; a database just created
    has no table. *)
Definition criar_banco_dados (srv : option banco) : banco :=
  match srv with
  | Some db => db
  | None => mk_banco None None
  end.

(** CREATE TABLE IF NOT EXISTS, for [clientes] then [vendas]. *)
Definition criar_tabelas (db : banco) : banco :=
  mk_banco
    (Some (match tb_clientes db with Some t => t | None => empty end))
    (Some (match tb_vendas db with Some t => t | None => empty end)).

(** The statements of a loop, one per row, until one raises. *)
Fixpoint executar_todos {T R : Type} (exec : T -> R -> option T) (t : T)
    (rows : list R) : option T :=
  match rows with
  | [] => Some t
  | r :: rows' =>
      match exec t r with
      | Some t' => executar_todos exec t' rows'
      | None => None
      end
  end.

(** The last row of a frame that satisfies [p]. *)
Fixpoint ultimo {R : Type} (p : R -> bool) (rows : list R) : option R :=
  match rows with
  | [] => None
  | r :: rows' =>
      match ultimo p rows' with
      | Some r' => Some r'
      | None => if p r then Some r else None
      end
  end.

Definition existe {R : Type} (k : Z) (t : gmap Z R) : bool :=
  match t !! k with
  | Some _ => true
  | None => false
  end.

Section Carga.

Variable aceita_cliente : cliente -> bool.
Variable aceita_venda : venda -> bool.

(** INSERT INTO clientes ... ON CONFLICT (id_cliente) DO UPDATE SET every
    other column: reading a column the frame lacks raises KeyError. *)
Definition inserir_cliente (t : gmap Z cliente) (row : cliente)
    : option (gmap Z cliente) :=
  match documento_formatado row, data_cadastro row with
  | Some _, Some _ =>
      if aceita_cliente row then Some (<[id_cliente row := row]> t)
      else None
  | _, _ => None
  end.

(** INSERT INTO vendas ... ON CONFLICT (id_venda) DO UPDATE SET every other
    column; [tc] is the table of persons at that moment. *)
Definition inserir_venda (tc : gmap Z cliente) (t : gmap Z venda)
    (row : venda) : option (gmap Z venda) :=
  match mes_venda row, ano_venda row, status_venda row with
  | Some _, Some _, Some _ =>
      if aceita_venda row && existe (venda_id_cliente row) tc
      then Some (<[id_venda row := row]> t)
      else None
  | _, _, _ => None
  end.

(** [None]: a statement raised; nothing was committed. *)
Definition carregar_dados (db : banco) (df_clientes : list cliente)
    (df_vendas : list venda) : option banco :=
  match tb_clientes db, tb_vendas db with
  | Some tc, Some tv =>
      match executar_todos inserir_cliente tc df_clientes with
      | Some tc' =>
          match executar_todos (inserir_venda tc') tv df_vendas with
          | Some tv' => Some (mk_banco (Some tc') (Some tv'))
          | None => None
          end
      | None => None
      end
  | _, _ => None
  end.

(** A person row the loop can write: the derived columns are there and the
    values are accepted. *)
Definition cliente_carregavel (r : cliente) : bool :=
  match documento_formatado r, data_cadastro r with
  | Some _, Some _ => aceita_cliente r
  | _, _ => false
  end.

Definition venda_carregavel (v : venda) : bool :=
  match mes_venda v, ano_venda v, status_venda v with
  | Some _, Some _, Some _ => aceita_venda v
  | _, _, _ => false
  end.

End Carga.

(** The type [read_excel] gives the column [data_venda] of the sheet: a
    datetime column when at least one cell holds a date.  Without any date
    (a sheet without data row, or with empty date cells only) the column is
    an object or a float column, and the [.dt] accessor raises. *)
Definition coluna_de_datas (df_vendas : list venda) : bool :=
  existsb (fun v => match data_venda v with
                    | Timestamp _ => true
                    | NaT => false
                    end) df_vendas.

(** [main]: [planilha] is the outcome of [extrair_dados] (the two frames,
    or [None] when reading the spreadsheet fails), [srv] the database on the
    server before the run.  The result is the database after the run and
    the exit status.  [transformar_dados] is called outside the [try]: when
    it raises, the process ends with status 1 before the server is
    reached. *)
Definition main (upper lower : pystr -> pystr) (isdigit : N -> bool)
    (round2 : float -> float) (aceita_cliente : cliente -> bool)
    (aceita_venda : venda -> bool) (hoje : pystr)
    (planilha : option (list cliente * list venda)) (srv : option banco)
    : option banco * saida :=
  match planilha with
  | None => (srv, Falha)
  | Some (df_clientes, df_vendas) =>
      if coluna_de_datas df_vendas then
        let '(df_clientes_transformado, df_vendas_transformado) :=
          transformar_dados upper lower isdigit round2 hoje
                            df_clientes df_vendas in
        let conn := criar_banco_dados srv in
        let conn := criar_tabelas conn in
        match carregar_dados aceita_cliente aceita_venda conn
                             df_clientes_transformado df_vendas_transformado
        with
        | Some db => (Some db, Sucesso)
        | None => (Some conn, Falha)
        end
      else (srv, Falha)
  end.

(** The table after one upsert per row of the frame, in order. *)
Definition gravar {R : Type} (key : R -> Z) (rows : list R)
    (t : gmap Z R) : gmap Z R :=
  fold_left (fun t r => <[key r := r]> t) rows t.

(** The rows stored on the server: none when the database or the table
    does not exist. *)
Definition linhas_clientes (srv : option banco) : gmap Z cliente :=
  match srv with
  | Some db => match tb_clientes db with Some t => t | None => empty end
  | None => empty
  end.

Definition linhas_vendas (srv : option banco) : gmap Z venda :=
  match srv with
  | Some db => match tb_vendas db with Some t => t | None => empty end
  | None => empty
  end.

(** Every stored transaction refers to a stored person. *)
Definition integridade_referencial (db : banco) : Prop :=
  forall k v,
    linhas_vendas (Some db) !! k = Some v ->
    is_Some (linhas_clientes (Some db) !! venda_id_cliente v).

(** ** Sample database

    An instance of the acceptance parameters: the NOT NULL columns of
    [clientes] refuse None, and [vendas] refuses a row without date. *)

Definition aceita_cliente_ex (r : cliente) : bool :=
  negb (is_none (nome r)) && negb (is_none (email r)) &&
  negb (is_none (tipo_pessoa r)) && negb (is_none (tipo_contato r)).

Definition aceita_venda_ex (v : venda) : bool :=
  match data_venda v with
  | NaT => false
  | Timestamp _ => true
  end.

(** 2024-03-16, amount 1234.5, bought by person 2. *)
Definition venda_12 : venda :=
  mk_venda 12 2 (Timestamp (mk_date 2024 3 16)) 1234.5%float None None None.

(** A second row for person 1, later in the sheet. *)
Definition ana_bis : cliente :=
  mk_cliente 1 (Str (lit "Ana B")) (Str (lit "ana@x.com"))
             (Str (lit "123.456.789-01")) (Str (lit "fisica"))
             (Str (lit "EMAIL")) None None.

Definition planilha_ex : list cliente * list venda :=
  ([ana; loja; ana_bis], [venda_10; venda_12]).

(** The sample sheets after the transformation. *)
Definition clientes_ex : list cliente :=
  fst (transformar_dados upper_ascii lower_ascii isdigit_ascii np_round2
         hoje_ex (fst planilha_ex) (snd planilha_ex)).

Definition vendas_ex : list venda :=
  snd (transformar_dados upper_ascii lower_ascii isdigit_ascii np_round2
         hoje_ex (fst planilha_ex) (snd planilha_ex)).

Definition banco_sem_linhas : banco := mk_banco (Some empty) (Some empty).

Definition banco_ex : banco :=
  mk_banco (Some (gravar id_cliente clientes_ex empty))
           (Some (gravar id_venda vendas_ex empty)).

(** * Properties *)

Lemma pystr_eqb_eq (a b : pystr) : pystr_eqb a b = true <-> a = b.
Proof.
  revert b; induction a as [|x a IH]; intros [|y b]; simpl;
    try (split; [discriminate | congruence]); try tauto.
  rewrite andb_true_iff, N.eqb_eq, IH.
  split; [intros [-> ->]; reflexivity | intros [= -> ->]; auto].
Qed.

Lemma cell_eq_lit_true (c : cell) (s : pystr) :
  cell_eq_lit c s = true <-> c = Str s.
Proof.
  destruct c as [| |t]; simpl; try (split; [discriminate | congruence]).
  rewrite pystr_eqb_eq. split; [congruence | intros [= ->]; reflexivity].
Qed.

Lemma cell_eq_lit_false (c : cell) (s : pystr) :
  cell_eq_lit c s = false <-> c <> Str s.
Proof.
  rewrite <- cell_eq_lit_true. destruct (cell_eq_lit c s); split;
    congruence.
Qed.

Lemma filter_all_true {A} (p : A -> bool) (l : list A) :
  Forall (fun x => p x = true) (filter p l).
Proof.
  apply Forall_forall. intros x Hx. apply filter_In in Hx. tauto.
Qed.

Lemma filter_none {A} (p : A -> bool) (l : list A) :
  forallb (fun x => negb (p x)) l = true -> filter p l = [].
Proof.
  induction l as [|x l IH]; simpl; [reflexivity|].
  rewrite andb_true_iff. intros [Hx Hl].
  destruct (p x); [discriminate | auto].
Qed.

Section Documento.

Variable isdigit : N -> bool.

(** A non-empty string passes the guard of [formatar_documento]. *)
Lemma formatar_documento_str (s : pystr) (tipo : cell) :
  s <> [] ->
  formatar_documento isdigit (Str s) tipo =
  let doc_limpo := filter isdigit s in
  if cell_eq_lit tipo FISICA && (length doc_limpo =? 11)%nat then
    Str (firstn 3 doc_limpo ++ [ponto] ++ slice 3 6 doc_limpo ++ [ponto]
         ++ slice 6 9 doc_limpo ++ [hifen] ++ skipn 9 doc_limpo)%list
  else if cell_eq_lit tipo JURIDICA && (length doc_limpo =? 14)%nat then
    Str (firstn 2 doc_limpo ++ [ponto] ++ slice 2 5 doc_limpo ++ [ponto]
         ++ slice 5 8 doc_limpo ++ [barra] ++ slice 8 12 doc_limpo
         ++ [hifen] ++ skipn 12 doc_limpo)%list
  else Str doc_limpo.
Proof.
  intros Hs. unfold formatar_documento.
  destruct s as [|c s]; [congruence | reflexivity].
Qed.

Lemma digits_nonempty (s : pystr) : filter isdigit s <> [] -> s <> [].
Proof. intros H ->. apply H. reflexivity. Qed.

(** C2: an absent raw document (NaN or None) or the empty string gives
    None, whatever the person type and whatever the digit table: the
    stripping step is not reached. *)
Theorem formatar_documento_absent_or_empty (tipo : cell) :
  formatar_documento isdigit NaN tipo = PyNone /\
  formatar_documento isdigit PyNone tipo = PyNone /\
  formatar_documento isdigit (Str []) tipo = PyNone.
Proof. repeat split. Qed.

(** C3: when stripping the non-digits of the raw document leaves exactly
    11 digits d1 ... d11, the person type "FISICA" gives
    d1 d2 d3 . d4 d5 d6 . d7 d8 d9 - d10 d11. *)
Theorem formatar_documento_cpf (s : pystr) :
  length (filter isdigit s) = 11%nat ->
  exists d1 d2 d3 d4 d5 d6 d7 d8 d9 d10 d11,
    filter isdigit s = [d1; d2; d3; d4; d5; d6; d7; d8; d9; d10; d11] /\
    Forall (fun d => isdigit d = true)
           [d1; d2; d3; d4; d5; d6; d7; d8; d9; d10; d11] /\
    formatar_documento isdigit (Str s) (Str FISICA) =
    Str [d1; d2; d3; ponto; d4; d5; d6; ponto; d7; d8; d9; hifen;
         d10; d11].
Proof.
  intros Hlen.
  assert (Hs : s <> []) by (apply digits_nonempty; intros E;
                            rewrite E in Hlen; discriminate).
  rewrite (formatar_documento_str s (Str FISICA) Hs). cbv zeta.
  pose proof (filter_all_true isdigit s) as Hall.
  rewrite Hlen.
  destruct (filter isdigit s)
    as [|d1 [|d2 [|d3 [|d4 [|d5 [|d6 [|d7 [|d8 [|d9 [|d10 [|d11
        [|? ?]]]]]]]]]]]];
    try discriminate Hlen.
  exists d1, d2, d3, d4, d5, d6, d7, d8, d9, d10, d11.
  repeat split; assumption.
Qed.

(** C4: when stripping the non-digits of the raw document leaves exactly
    14 digits d1 ... d14, the person type "JURIDICA" gives
    d1 d2 . d3 d4 d5 . d6 d7 d8 / d9 d10 d11 d12 - d13 d14. *)
Theorem formatar_documento_cnpj (s : pystr) :
  length (filter isdigit s) = 14%nat ->
  exists d1 d2 d3 d4 d5 d6 d7 d8 d9 d10 d11 d12 d13 d14,
    filter isdigit s =
    [d1; d2; d3; d4; d5; d6; d7; d8; d9; d10; d11; d12; d13; d14] /\
    Forall (fun d => isdigit d = true)
           [d1; d2; d3; d4; d5; d6; d7; d8; d9; d10; d11; d12; d13; d14] /\
    formatar_documento isdigit (Str s) (Str JURIDICA) =
    Str [d1; d2; ponto; d3; d4; d5; ponto; d6; d7; d8; barra;
         d9; d10; d11; d12; hifen; d13; d14].
Proof.
  intros Hlen.
  assert (Hs : s <> []) by (apply digits_nonempty; intros E;
                            rewrite E in Hlen; discriminate).
  rewrite (formatar_documento_str s (Str JURIDICA) Hs). cbv zeta.
  pose proof (filter_all_true isdigit s) as Hall.
  rewrite Hlen.
  destruct (filter isdigit s)
    as [|d1 [|d2 [|d3 [|d4 [|d5 [|d6 [|d7 [|d8 [|d9 [|d10 [|d11
        [|d12 [|d13 [|d14 [|? ?]]]]]]]]]]]]]]];
    try discriminate Hlen.
  exists d1, d2, d3, d4, d5, d6, d7, d8, d9, d10, d11, d12, d13, d14.
  repeat split; assumption.
Qed.

(** C5: for a non-empty raw document, when the person type and the number
    of digits left by the stripping are neither ("FISICA", 11) nor
    ("JURIDICA", 14), the function returns (it is total: nothing is
    raised) the stripped digits with no separator. *)
Theorem formatar_documento_fallback (s : pystr) (tipo : cell) :
  s <> [] ->
  ~ (tipo = Str FISICA /\ length (filter isdigit s) = 11%nat) ->
  ~ (tipo = Str JURIDICA /\ length (filter isdigit s) = 14%nat) ->
  formatar_documento isdigit (Str s) tipo = Str (filter isdigit s).
Proof.
  intros Hs Hf Hj.
  rewrite (formatar_documento_str s tipo Hs). cbv zeta.
  destruct (cell_eq_lit tipo FISICA && (length (filter isdigit s) =? 11)%nat)
    eqn:Ef.
  { exfalso. apply Hf. apply andb_true_iff in Ef as [Et El].
    apply cell_eq_lit_true in Et. apply Nat.eqb_eq in El. auto. }
  destruct (cell_eq_lit tipo JURIDICA && (length (filter isdigit s) =? 14)%nat)
    eqn:Ej.
  { exfalso. apply Hj. apply andb_true_iff in Ej as [Et El].
    apply cell_eq_lit_true in Et. apply Nat.eqb_eq in El. auto. }
  reflexivity.
Qed.

(** C10: a non-empty raw document without any digit gives the empty
    string, for every person type; and None comes out only for an absent
    or empty raw document, never from the stripping. *)
Theorem formatar_documento_no_digit :
  (forall (s : pystr) (tipo : cell),
      s <> [] -> forallb (fun c => negb (isdigit c)) s = true ->
      formatar_documento isdigit (Str s) tipo = Str []) /\
  (forall (doc tipo : cell),
      formatar_documento isdigit doc tipo = PyNone <->
      doc = NaN \/ doc = PyNone \/ doc = Str []).
Proof.
  split.
  - intros s tipo Hs Hnone.
    rewrite (formatar_documento_str s tipo Hs). cbv zeta.
    rewrite (filter_none isdigit s Hnone). simpl.
    rewrite !andb_false_r. reflexivity.
  - intros doc tipo. split.
    + destruct doc as [| |[|c s]]; auto.
      rewrite formatar_documento_str by discriminate. cbv zeta.
      repeat match goal with |- context [if ?b then _ else _] =>
                               destruct b end; discriminate.
    + intros [-> | [-> | ->]]; reflexivity.
Qed.

End Documento.

Section Normalizador.

Variable upper : pystr -> pystr.
Variable lower : pystr -> pystr.
Variable isdigit : N -> bool.
Variable round2 : float -> float.

(** Facts about CPython's case conversions: on ASCII text [str.upper] is the
    ASCII table, and converting twice is converting once. *)
Hypothesis upper_on_ascii :
  forall s, is_ascii s = true -> upper s = upper_ascii s.
Hypothesis upper_idem : forall s, upper (upper s) = upper s.
Hypothesis lower_idem : forall s, lower (lower s) = lower s.

(** The chain of column assignments, read row by row. *)
Lemma transformar_dados_rows (hoje : pystr) (cs : list cliente)
    (vs : list venda) :
  transformar_dados upper lower isdigit round2 hoje cs vs =
  (List.map (cliente_normalizado upper lower isdigit hoje) cs,
   List.map (venda_normalizada round2) vs).
Proof.
  unfold transformar_dados, assign. rewrite !map_map. reflexivity.
Qed.

(** C1 (amended): the output person-type tag is "FISICA" when the input tag
    is absent (None or NaN); every string, the empty one included, is
    converted to uppercase. *)
Theorem tipo_pessoa_normalizado (hoje : pystr) (cs : list cliente)
    (vs : list venda) :
  List.map tipo_pessoa
    (fst (transformar_dados upper lower isdigit round2 hoje cs vs)) =
  List.map (fun r => match tipo_pessoa r with
                     | NaN | PyNone => Str FISICA
                     | Str s => Str (upper s)
                     end) cs.
Proof.
  rewrite transformar_dados_rows. cbn [fst]. rewrite map_map.
  apply map_ext. intros r. cbn.
  destruct (tipo_pessoa r); cbn; try reflexivity;
    rewrite (upper_on_ascii FISICA eq_refl); reflexivity.
Qed.

(** C6: every output transaction row carries the status "CONCLUÍDA": the
    status column is that constant repeated, whatever the input frames. *)
Theorem status_venda_concluida (hoje : pystr) (cs : list cliente)
    (vs : list venda) :
  List.map status_venda
    (snd (transformar_dados upper lower isdigit round2 hoje cs vs)) =
  repeat (Some CONCLUIDA) (length vs).
Proof.
  rewrite transformar_dados_rows. cbn [snd]. rewrite map_map. cbn.
  induction vs as [|v vs' IH]; cbn; [reflexivity | now rewrite IH].
Qed.

(** C7: for the transaction row at any position whose date is a valid
    timestamp, the output row at that position has the month (between 1 and
    12) and the year of that date in [mes_venda] and [ano_venda]. *)
Theorem mes_ano_venda (hoje : pystr) (cs : list cliente) (vs : list venda)
    (i : nat) (v : venda) (d : date) :
  nth_error vs i = Some v ->
  data_venda v = Timestamp d ->
  valid_date d = true ->
  exists v',
    nth_error (snd (transformar_dados upper lower isdigit round2 hoje cs vs))
              i = Some v' /\
    mes_venda v' = Some (Int (month d)) /\
    ano_venda v' = Some (Int (year d)) /\
    (1 <= month d <= 12)%Z.
Proof.
  intros Hi Hd Hv.
  exists (venda_normalizada round2 v).
  rewrite transformar_dados_rows. cbn [snd].
  rewrite nth_error_map, Hi. cbn. rewrite Hd. cbn.
  unfold valid_date in Hv. rewrite !andb_true_iff in Hv.
  repeat split; try reflexivity; lia.
Qed.

(** C8: both output frames have the length of their input, and the
    identifier at every position is the one of the input row at that
    position: nothing is dropped or reordered. *)
Theorem transformar_dados_preserves_rows (hoje : pystr) (cs : list cliente)
    (vs : list venda) :
  length (fst (transformar_dados upper lower isdigit round2 hoje cs vs)) =
  length cs /\
  length (snd (transformar_dados upper lower isdigit round2 hoje cs vs)) =
  length vs /\
  List.map id_cliente
    (fst (transformar_dados upper lower isdigit round2 hoje cs vs)) =
  List.map id_cliente cs /\
  List.map id_venda
    (snd (transformar_dados upper lower isdigit round2 hoje cs vs)) =
  List.map id_venda vs.
Proof.
  rewrite transformar_dados_rows. cbn [fst snd].
  rewrite !length_map, !map_map. repeat split.
Qed.

Lemma cliente_normalizado_twice (h1 h2 : pystr) (r : cliente) :
  same_non_date_fields
    (cliente_normalizado upper lower isdigit h2
       (cliente_normalizado upper lower isdigit h1 r))
    (cliente_normalizado upper lower isdigit h1 r).
Proof.
  assert (Ht : forall t,
             str_upper upper (fillna FISICA (str_upper upper (fillna FISICA t)))
             = str_upper upper (fillna FISICA t)).
  { intros t. destruct t; cbn; rewrite upper_idem; reflexivity. }
  assert (Hc : forall t,
             str_lower lower
               (fillna email_padrao (str_lower lower (fillna email_padrao t)))
             = str_lower lower (fillna email_padrao t)).
  { intros t. destruct t; cbn; rewrite lower_idem; reflexivity. }
  unfold same_non_date_fields, cliente_normalizado. cbn.
  rewrite Ht, Hc. repeat split.
Qed.

Lemma venda_normalizada_twice (v : venda) :
  round2 (round2 (valor v)) = round2 (valor v) ->
  venda_normalizada round2 (venda_normalizada round2 v) =
  venda_normalizada round2 v.
Proof.
  intros H. unfold venda_normalizada. cbn. rewrite H. reflexivity.
Qed.

(** C9: running the transformation on its own output, possibly on another
    day, changes no field but the registration date.  The library facts
    used: [str.upper] and [str.lower] are idempotent, and rounding an
    already rounded amount of the frame gives it back. *)
Theorem transformar_dados_idempotente (hoje1 hoje2 : pystr)
    (cs : list cliente) (vs : list venda) :
  Forall (fun v => round2 (round2 (valor v)) = round2 (valor v)) vs ->
  let once :=
    transformar_dados upper lower isdigit round2 hoje1 cs vs in
  let twice :=
    transformar_dados upper lower isdigit round2 hoje2 (fst once) (snd once) in
  Forall2 same_non_date_fields (fst twice) (fst once) /\
  snd twice = snd once.
Proof.
  intros Hr once twice. subst once twice.
  rewrite !transformar_dados_rows. cbn [fst snd]. split.
  - induction cs as [|c cs' IH]; cbn; constructor;
      [apply cliente_normalizado_twice | exact IH].
  - induction Hr as [|v vs' Hv _ IH]; cbn; [reflexivity|].
    rewrite (venda_normalizada_twice v Hv), IH. reflexivity.
Qed.

End Normalizador.

(** * The model on the sample frames *)

Lemma ascii_upper_cp_idem (c : N) :
  ascii_upper_cp (ascii_upper_cp c) = ascii_upper_cp c.
Proof.
  unfold ascii_upper_cp.
  destruct ((97 <=? c) && (c <=? 122)) eqn:E; [|rewrite E; reflexivity].
  apply andb_true_iff in E as [E1 E2].
  apply N.leb_le in E1. apply N.leb_le in E2.
  replace (97 <=? c - 32) with false; [reflexivity|].
  symmetry. apply N.leb_gt. lia.
Qed.

Lemma ascii_lower_cp_idem (c : N) :
  ascii_lower_cp (ascii_lower_cp c) = ascii_lower_cp c.
Proof.
  unfold ascii_lower_cp.
  destruct ((65 <=? c) && (c <=? 90)) eqn:E; [|rewrite E; reflexivity].
  apply andb_true_iff in E as [E1 E2].
  apply N.leb_le in E1. apply N.leb_le in E2.
  replace (c + 32 <=? 90) with false;
    [rewrite andb_false_r; reflexivity|].
  symmetry. apply N.leb_gt. lia.
Qed.

Lemma upper_ascii_idem (s : pystr) :
  upper_ascii (upper_ascii s) = upper_ascii s.
Proof.
  unfold upper_ascii. rewrite map_map. apply map_ext.
  exact ascii_upper_cp_idem.
Qed.

Lemma lower_ascii_idem (s : pystr) :
  lower_ascii (lower_ascii s) = lower_ascii s.
Proof.
  unfold lower_ascii. rewrite map_map. apply map_ext.
  exact ascii_lower_cp_idem.
Qed.

(** The first end-to-end scenario: Ana, without person type, document
    12345678901. *)
Example transformar_ana :
  fst (transformar_dados upper_ascii lower_ascii isdigit_ascii np_round2
         hoje_ex [ana] []) =
  [mk_cliente 1 (Str (lit "Ana")) (Str (lit "a@x.com"))
              (Str (lit "12345678901")) (Str FISICA) (Str email_padrao)
              (Some (Str (lit "123.456.789-01"))) (Some hoje_ex)].
Proof. reflexivity. Qed.

(** The second end-to-end scenario: 2024-03-15, amount 99.999. *)
Example transformar_venda_10 :
  snd (transformar_dados upper_ascii lower_ascii isdigit_ascii np_round2
         hoje_ex [] [venda_10]) =
  [mk_venda 10 1 (Timestamp (mk_date 2024 3 15)) 100%float
            (Some (Int 3)) (Some (Int 2024)) (Some CONCLUIDA)].
Proof. vm_compute. reflexivity. Qed.

Example formatar_cnpj_loja :
  formatar_documento isdigit_ascii (Str (lit "12.345.678/0001-95"))
                     (Str JURIDICA) =
  Str (lit "12.345.678/0001-95").
Proof. reflexivity. Qed.

(** C1, as stated, fails on the empty string: the row [sem_tipo], whose
    input tag is the empty string, comes out with the empty string as its
    tag, not with "FISICA". *)
Lemma tipo_pessoa_empty_counterexample :
  tipo_pessoa sem_tipo = Str [] /\
  List.map tipo_pessoa
    (fst (transformar_dados upper_ascii lower_ascii isdigit_ascii np_round2
            hoje_ex [sem_tipo] [])) = [Str []] /\
  Str [] <> Str FISICA.
Proof. repeat split. discriminate. Qed.

Lemma tipo_pessoa_normalizado_witness :
  List.map tipo_pessoa
    (fst (transformar_dados upper_ascii lower_ascii isdigit_ascii np_round2
            hoje_ex [ana; loja; sem_tipo] [])) =
  [Str FISICA; Str JURIDICA; Str []].
Proof.
  exact (tipo_pessoa_normalizado upper_ascii lower_ascii isdigit_ascii
           np_round2 (fun _ _ => eq_refl) hoje_ex [ana; loja; sem_tipo] []).
Defined.

Lemma formatar_documento_cpf_witness :
  length (filter isdigit_ascii (lit "123.456.789-01")) = 11%nat /\
  exists d1 d2 d3 d4 d5 d6 d7 d8 d9 d10 d11,
    filter isdigit_ascii (lit "123.456.789-01") =
    [d1; d2; d3; d4; d5; d6; d7; d8; d9; d10; d11] /\
    Forall (fun d => isdigit_ascii d = true)
           [d1; d2; d3; d4; d5; d6; d7; d8; d9; d10; d11] /\
    formatar_documento isdigit_ascii (Str (lit "123.456.789-01"))
                       (Str FISICA) =
    Str [d1; d2; d3; ponto; d4; d5; d6; ponto; d7; d8; d9; hifen; d10; d11].
Proof.
  split; [reflexivity|].
  apply (formatar_documento_cpf isdigit_ascii (lit "123.456.789-01")).
  reflexivity.
Defined.

Lemma formatar_documento_cnpj_witness :
  length (filter isdigit_ascii (lit "12-345-678 0001 95")) = 14%nat /\
  exists d1 d2 d3 d4 d5 d6 d7 d8 d9 d10 d11 d12 d13 d14,
    filter isdigit_ascii (lit "12-345-678 0001 95") =
    [d1; d2; d3; d4; d5; d6; d7; d8; d9; d10; d11; d12; d13; d14] /\
    Forall (fun d => isdigit_ascii d = true)
           [d1; d2; d3; d4; d5; d6; d7; d8; d9; d10; d11; d12; d13; d14] /\
    formatar_documento isdigit_ascii (Str (lit "12-345-678 0001 95"))
                       (Str JURIDICA) =
    Str [d1; d2; ponto; d3; d4; d5; ponto; d6; d7; d8; barra;
         d9; d10; d11; d12; hifen; d13; d14].
Proof.
  split; [reflexivity|].
  apply (formatar_documento_cnpj isdigit_ascii (lit "12-345-678 0001 95")).
  reflexivity.
Defined.

(** Eleven digits with the type "JURIDICA": the digits come back bare. *)
Lemma formatar_documento_fallback_witness :
  formatar_documento isdigit_ascii (Str (lit "123.456.789-01"))
                     (Str JURIDICA) =
  Str (lit "12345678901").
Proof.
  apply (formatar_documento_fallback isdigit_ascii (lit "123.456.789-01")
           (Str JURIDICA)).
  - discriminate.
  - intros [H _]. discriminate H.
  - intros [_ H]. vm_compute in H. discriminate H.
Defined.

Lemma formatar_documento_no_digit_witness :
  formatar_documento isdigit_ascii (Str (lit "---")) (Str FISICA) = Str [].
Proof.
  apply (proj1 (formatar_documento_no_digit isdigit_ascii)).
  - discriminate.
  - reflexivity.
Defined.

Lemma mes_ano_venda_witness :
  exists v',
    nth_error
      (snd (transformar_dados upper_ascii lower_ascii isdigit_ascii np_round2
              hoje_ex [ana] [venda_11; venda_10])) 1 = Some v' /\
    mes_venda v' = Some (Int 3) /\
    ano_venda v' = Some (Int 2024) /\
    (1 <= 3 <= 12)%Z.
Proof.
  exact (mes_ano_venda upper_ascii lower_ascii isdigit_ascii np_round2
           hoje_ex [ana] [venda_11; venda_10] 1 venda_10
           (mk_date 2024 3 15) eq_refl eq_refl eq_refl).
Defined.

Lemma transformar_dados_idempotente_witness :
  let once :=
    transformar_dados upper_ascii lower_ascii isdigit_ascii np_round2
      hoje_ex [ana; loja; sem_tipo] [venda_10; venda_11] in
  let twice :=
    transformar_dados upper_ascii lower_ascii isdigit_ascii np_round2
      outro_dia (fst once) (snd once) in
  Forall2 same_non_date_fields (fst twice) (fst once) /\
  snd twice = snd once.
Proof.
  apply (transformar_dados_idempotente upper_ascii lower_ascii isdigit_ascii
           np_round2 upper_ascii_idem lower_ascii_idem hoje_ex outro_dia
           [ana; loja; sem_tipo] [venda_10; venda_11]).
  repeat constructor.
Defined.

(** * Further properties of the transformation *)

Ltac explicit_digits :=
  repeat match goal with
         | H : Forall _ (_ :: _) |- _ => inversion H; subst; clear H
         | H : Forall _ [] |- _ => clear H
         end;
  cbn [List.filter List.app firstn skipn slice Nat.sub];
  repeat match goal with
         | H : _ = true |- _ => rewrite H
         | H : _ = false |- _ => rewrite H
         end.

Lemma filter_twice {A : Type} (p : A -> bool) (l : list A) :
  List.filter p (List.filter p l) = List.filter p l.
Proof.
  induction l as [|a l IH]; cbn; [reflexivity|].
  destruct (p a) eqn:E; cbn; rewrite ?E; congruence.
Qed.

Section Formatacao.

Variable isdigit : N -> bool.

(** The separators are no digits (a fact about [str.isdigit]). *)
Hypothesis ponto_not_digit : isdigit ponto = false.
Hypothesis hifen_not_digit : isdigit hifen = false.
Hypothesis barra_not_digit : isdigit barra = false.

Lemma formatar_documento_same_digits (s1 s2 : pystr) (tipo : cell) :
  s1 <> [] -> s2 <> [] ->
  List.filter isdigit s1 = List.filter isdigit s2 ->
  formatar_documento isdigit (Str s1) tipo =
  formatar_documento isdigit (Str s2) tipo.
Proof.
  intros H1 H2 E.
  rewrite (formatar_documento_str isdigit s1 tipo H1).
  rewrite (formatar_documento_str isdigit s2 tipo H2).
  rewrite E. reflexivity.
Qed.

(** Whatever branch formats a non-empty raw document, stripping the result
    gives the digits of the raw document again: formatting neither loses,
    adds nor reorders a digit. *)
Theorem formatar_documento_keeps_digits (s : pystr) (tipo : cell) :
  s <> [] ->
  exists out,
    formatar_documento isdigit (Str s) tipo = Str out /\
    List.filter isdigit out = List.filter isdigit s.
Proof.
  intros Hs.
  rewrite (formatar_documento_str isdigit s tipo Hs). cbv zeta.
  pose proof (filter_all_true isdigit s) as Hall.
  destruct (cell_eq_lit tipo FISICA &&
            (length (List.filter isdigit s) =? 11)%nat) eqn:Ef.
  { apply andb_true_iff in Ef as [_ El]. apply Nat.eqb_eq in El.
    destruct (List.filter isdigit s)
      as [|d1 [|d2 [|d3 [|d4 [|d5 [|d6 [|d7 [|d8 [|d9 [|d10 [|d11
          [|? ?]]]]]]]]]]]];
      try discriminate El.
    eexists; split; [reflexivity|]. explicit_digits. reflexivity. }
  destruct (cell_eq_lit tipo JURIDICA &&
            (length (List.filter isdigit s) =? 14)%nat) eqn:Ej.
  { apply andb_true_iff in Ej as [_ El]. apply Nat.eqb_eq in El.
    destruct (List.filter isdigit s)
      as [|d1 [|d2 [|d3 [|d4 [|d5 [|d6 [|d7 [|d8 [|d9 [|d10 [|d11
          [|d12 [|d13 [|d14 [|? ?]]]]]]]]]]]]]]];
      try discriminate El.
    eexists; split; [reflexivity|]. explicit_digits. reflexivity. }
  eexists; split; [reflexivity | apply filter_twice].
Qed.

(** Formatting a formatted document again, with the same person type,
    changes nothing; except that a non-empty raw document without any digit
    is formatted to the empty string, which a second pass turns into
    None. *)
Theorem formatar_documento_twice (s : pystr) (tipo : cell) :
  s <> [] ->
  formatar_documento isdigit (formatar_documento isdigit (Str s) tipo) tipo =
  match List.filter isdigit s with
  | [] => PyNone
  | _ :: _ => formatar_documento isdigit (Str s) tipo
  end.
Proof.
  intros Hs.
  destruct (formatar_documento_keeps_digits s tipo Hs) as (out & Hout & Hf).
  destruct (List.filter isdigit s) as [|d ds] eqn:E.
  - pose proof Hout as Hraw.
    rewrite (formatar_documento_str isdigit s tipo Hs) in Hraw.
    cbv zeta in Hraw. rewrite E in Hraw. cbn in Hraw.
    rewrite !andb_false_r in Hraw. injection Hraw as <-.
    rewrite Hout. reflexivity.
  - rewrite Hout at 1.
    apply formatar_documento_same_digits; [|exact Hs|congruence].
    intros ->. discriminate Hf.
Qed.

End Formatacao.

Section Colunas.

Variable upper : pystr -> pystr.
Variable lower : pystr -> pystr.
Variable isdigit : N -> bool.
Variable round2 : float -> float.

(** On ASCII text [str.upper] and [str.lower] are the ASCII tables. *)
Hypothesis upper_on_ascii :
  forall s, is_ascii s = true -> upper s = upper_ascii s.
Hypothesis lower_on_ascii :
  forall s, is_ascii s = true -> lower s = lower_ascii s.

(** The output contact-type tag is "email" when the input tag is missing
    (None or NaN); every string, the empty one included, is converted to
    lowercase. *)
Theorem tipo_contato_normalizado (hoje : pystr) (cs : list cliente)
    (vs : list venda) :
  List.map tipo_contato
    (fst (transformar_dados upper lower isdigit round2 hoje cs vs)) =
  List.map (fun r => match tipo_contato r with
                     | NaN | PyNone => Str email_padrao
                     | Str s => Str (lower s)
                     end) cs.
Proof.
  rewrite transformar_dados_rows. cbn [fst]. rewrite map_map.
  apply map_ext. intros r. cbn.
  destruct (tipo_contato r); cbn; try reflexivity;
    rewrite (lower_on_ascii email_padrao eq_refl); reflexivity.
Qed.

(** Every output person row carries the date of the run, the same for all
    rows, whatever the input held. *)
Theorem data_cadastro_hoje (hoje : pystr) (cs : list cliente)
    (vs : list venda) :
  List.map data_cadastro
    (fst (transformar_dados upper lower isdigit round2 hoje cs vs)) =
  repeat (Some hoje) (length cs).
Proof.
  rewrite transformar_dados_rows. cbn [fst]. rewrite map_map. cbn.
  induction cs as [|c cs' IH]; cbn; [reflexivity | now rewrite IH].
Qed.

(** The transformation leaves the columns read from the spreadsheet alone:
    name, e-mail and raw document of every person, person reference and
    date of every transaction; the amount column is the rounding of the
    input amounts. *)
Theorem transformar_dados_source_columns (hoje : pystr) (cs : list cliente)
    (vs : list venda) :
  let out := transformar_dados upper lower isdigit round2 hoje cs vs in
  List.map nome (fst out) = List.map nome cs /\
  List.map email (fst out) = List.map email cs /\
  List.map documento (fst out) = List.map documento cs /\
  List.map venda_id_cliente (snd out) = List.map venda_id_cliente vs /\
  List.map data_venda (snd out) = List.map data_venda vs /\
  List.map valor (snd out) = List.map (fun v => round2 (valor v)) vs.
Proof.
  cbv zeta. rewrite transformar_dados_rows. cbn [fst snd].
  rewrite !map_map. repeat split.
Qed.

(** The document is formatted with the person type as normalized, not as
    read: a row whose raw document has 11 digits and whose person type is
    missing, or is any string that uppercases to "FISICA", gets the type
    "FISICA" and its document in the shape DDD.DDD.DDD-DD. *)
Theorem documento_formatado_cpf (hoje : pystr) (cs : list cliente)
    (vs : list venda) (i : nat) (r : cliente) (s : pystr) :
  nth_error cs i = Some r ->
  documento r = Str s ->
  length (List.filter isdigit s) = 11%nat ->
  (tipo_pessoa r = NaN \/ tipo_pessoa r = PyNone \/
   exists t, tipo_pessoa r = Str t /\ upper t = FISICA) ->
  exists r',
    nth_error (fst (transformar_dados upper lower isdigit round2 hoje cs vs))
              i = Some r' /\
    tipo_pessoa r' = Str FISICA /\
    documento_formatado r' =
    Some (Str (let d := List.filter isdigit s in
               firstn 3 d ++ [ponto] ++ slice 3 6 d ++ [ponto]
               ++ slice 6 9 d ++ [hifen] ++ skipn 9 d)%list).
Proof.
  intros Hi Hd Hlen Ht.
  exists (cliente_normalizado upper lower isdigit hoje r).
  rewrite transformar_dados_rows. cbn [fst].
  rewrite nth_error_map, Hi. cbn [option_map].
  assert (Htipo : str_upper upper (fillna FISICA (tipo_pessoa r)) = Str FISICA).
  { destruct Ht as [-> | [-> | (t & -> & Hu)]]; cbn;
      [rewrite (upper_on_ascii FISICA eq_refl) ..| rewrite Hu]; reflexivity. }
  assert (Hs : s <> []) by (intros ->; discriminate Hlen).
  split; [reflexivity|]. cbn. rewrite Htipo, Hd. split; [reflexivity|].
  rewrite (formatar_documento_str isdigit s (Str FISICA) Hs). cbv zeta.
  rewrite Hlen. reflexivity.
Qed.

(** A transaction without date (NaT) does not stop the transformation: its
    row is kept at its position, with NaN as month and as year and with the
    status "CONCLUÍDA". *)
Theorem venda_sem_data (hoje : pystr) (cs : list cliente) (vs : list venda)
    (i : nat) (v : venda) :
  nth_error vs i = Some v ->
  data_venda v = NaT ->
  exists v',
    nth_error (snd (transformar_dados upper lower isdigit round2 hoje cs vs))
              i = Some v' /\
    id_venda v' = id_venda v /\
    mes_venda v' = Some IntNaN /\
    ano_venda v' = Some IntNaN /\
    status_venda v' = Some CONCLUIDA.
Proof.
  intros Hi Hd.
  exists (venda_normalizada round2 v).
  rewrite transformar_dados_rows. cbn [snd].
  rewrite nth_error_map, Hi. cbn. rewrite Hd. repeat split.
Qed.

End Colunas.

(** * Properties of the load *)

Lemma ultimo_Some {R : Type} (p : R -> bool) (rows : list R) (r : R) :
  ultimo p rows = Some r -> In r rows /\ p r = true.
Proof.
  induction rows as [|x rows IH]; cbn; [discriminate|].
  destruct (ultimo p rows) as [r'|].
  - intros [= <-]. destruct (IH eq_refl). auto.
  - destruct (p x) eqn:E; [|discriminate]. intros [= <-]. auto.
Qed.

Lemma ultimo_None {R : Type} (p : R -> bool) (rows : list R) :
  ultimo p rows = None -> forall r, In r rows -> p r = false.
Proof.
  induction rows as [|x rows IH]; cbn; [tauto|].
  destruct (ultimo p rows) as [r'|]; [discriminate|].
  destruct (p x) eqn:E; [discriminate|].
  intros _ r [<- | Hr]; auto.
Qed.

Lemma lookup_gravar {R : Type} (key : R -> Z) (rows : list R)
    (t : gmap Z R) (k : Z) :
  gravar key rows t !! k =
  match ultimo (fun r => (key r =? k)%Z) rows with
  | Some r => Some r
  | None => t !! k
  end.
Proof.
  unfold gravar. revert t.
  induction rows as [|x rows IH]; intros t; cbn; [reflexivity|].
  rewrite IH. destruct (ultimo _ rows); [reflexivity|].
  destruct (Z.eqb_spec (key x) k) as [<- | Hne].
  - apply lookup_insert_eq.
  - apply lookup_insert_ne. exact Hne.
Qed.

Lemma gravar_twice {R : Type} (key : R -> Z) (rows : list R)
    (t : gmap Z R) :
  gravar key rows (gravar key rows t) = gravar key rows t.
Proof.
  apply map_eq. intros k. rewrite !lookup_gravar.
  destruct (ultimo _ rows); reflexivity.
Qed.

Lemma is_Some_gravar {R : Type} (key : R -> Z) (rows : list R)
    (t : gmap Z R) (k : Z) :
  is_Some (gravar key rows t !! k) <->
  is_Some (t !! k) \/ In k (List.map key rows).
Proof.
  rewrite lookup_gravar.
  destruct (ultimo _ rows) as [r|] eqn:E.
  - apply ultimo_Some in E as [Hin Hk]. apply Z.eqb_eq in Hk.
    split; [|intros _; eexists; reflexivity].
    intros _. right. subst k. apply in_map. exact Hin.
  - split; [auto|]. intros [H | H]; [exact H|].
    apply in_map_iff in H as (r & Hk & Hin).
    apply (ultimo_None _ _ E) in Hin. apply Z.eqb_neq in Hin. contradiction.
Qed.

Lemma existe_true {R : Type} (k : Z) (t : gmap Z R) :
  existe k t = true <-> is_Some (t !! k).
Proof.
  unfold existe. destruct (t !! k); split; intros H;
    try discriminate; try reflexivity; try (eexists; reflexivity).
  destruct H as [? [=]].
Qed.

Lemma executar_todos_upsert {R : Type} (key : R -> Z) (ok : R -> bool)
    (exec : gmap Z R -> R -> option (gmap Z R)) :
  (forall t r, exec t r = if ok r then Some (<[key r := r]> t) else None) ->
  forall rows t,
    executar_todos exec t rows =
    if forallb ok rows then Some (gravar key rows t) else None.
Proof.
  intros Hexec. induction rows as [|x rows IH]; intros t; cbn;
    [reflexivity|].
  rewrite Hexec. destruct (ok x); cbn; [apply IH | reflexivity].
Qed.

Section Banco.

Variable aceita_cliente : cliente -> bool.
Variable aceita_venda : venda -> bool.

Lemma inserir_cliente_upsert (t : gmap Z cliente) (r : cliente) :
  inserir_cliente aceita_cliente t r =
  if cliente_carregavel aceita_cliente r then Some (<[id_cliente r := r]> t)
  else None.
Proof.
  unfold inserir_cliente, cliente_carregavel.
  destruct (documento_formatado r), (data_cadastro r); reflexivity.
Qed.

Lemma inserir_venda_upsert (tc : gmap Z cliente) (t : gmap Z venda)
    (v : venda) :
  inserir_venda aceita_venda tc t v =
  if venda_carregavel aceita_venda v && existe (venda_id_cliente v) tc
  then Some (<[id_venda v := v]> t) else None.
Proof.
  unfold inserir_venda, venda_carregavel.
  destruct (mes_venda v), (ano_venda v), (status_venda v); reflexivity.
Qed.

(** The two loops, as one condition and two tables. *)
Lemma carregar_dados_eq (tc : gmap Z cliente) (tv : gmap Z venda)
    (cs : list cliente) (vs : list venda) :
  carregar_dados aceita_cliente aceita_venda
                 (mk_banco (Some tc) (Some tv)) cs vs =
  if forallb (cliente_carregavel aceita_cliente) cs &&
     forallb (fun v => venda_carregavel aceita_venda v &&
                       existe (venda_id_cliente v) (gravar id_cliente cs tc))
             vs
  then Some (mk_banco (Some (gravar id_cliente cs tc))
                      (Some (gravar id_venda vs tv)))
  else None.
Proof.
  unfold carregar_dados. cbn [tb_clientes tb_vendas].
  rewrite (executar_todos_upsert id_cliente _ _ inserir_cliente_upsert).
  destruct (forallb _ cs); [|reflexivity].
  rewrite (executar_todos_upsert id_venda _ _
             (inserir_venda_upsert (gravar id_cliente cs tc))).
  destruct (forallb _ vs); reflexivity.
Qed.

Lemma carregar_dados_Some (db : banco) (cs : list cliente)
    (vs : list venda) (db' : banco) :
  carregar_dados aceita_cliente aceita_venda db cs vs = Some db' ->
  exists tc tv,
    db = mk_banco (Some tc) (Some tv) /\
    db' = mk_banco (Some (gravar id_cliente cs tc))
                   (Some (gravar id_venda vs tv)) /\
    forallb (cliente_carregavel aceita_cliente) cs = true /\
    forallb (fun v => venda_carregavel aceita_venda v &&
                      existe (venda_id_cliente v) (gravar id_cliente cs tc))
            vs = true.
Proof.
  destruct db as [[tc|] [tv|]]; try discriminate.
  rewrite carregar_dados_eq.
  destruct (forallb _ cs) eqn:Ec; [|discriminate].
  destruct (forallb _ vs) eqn:Ev; [|discriminate].
  cbn. intros [= <-]. exists tc, tv. auto.
Qed.

Lemma forallb_Forall {A : Type} (p : A -> bool) (l : list A) :
  forallb p l = true <-> Forall (fun x => p x = true) l.
Proof. rewrite forallb_forall, List.Forall_forall. reflexivity. Qed.

Lemma Forall_equiv {A : Type} (P Q : A -> Prop) (l : list A) :
  (forall x, P x <-> Q x) -> Forall P l <-> Forall Q l.
Proof.
  intros H. split; apply List.Forall_impl; intros x; apply H.
Qed.

Lemma carregar_dados_ok (tc : gmap Z cliente) (tv : gmap Z venda)
    (cs : list cliente) (vs : list venda) :
  is_Some (carregar_dados aceita_cliente aceita_venda
                          (mk_banco (Some tc) (Some tv)) cs vs) <->
  forallb (cliente_carregavel aceita_cliente) cs = true /\
  forallb (fun v => venda_carregavel aceita_venda v &&
                    existe (venda_id_cliente v) (gravar id_cliente cs tc))
          vs = true.
Proof.
  rewrite carregar_dados_eq.
  destruct (forallb _ cs); destruct (forallb _ vs); cbn;
    (split;
     [ intros H; try (destruct H as [? [=]]); auto
     | intros [H1 H2]; try discriminate; eexists; reflexivity ]).
Qed.

(** The load succeeds exactly when every row can be written (its derived
    columns are present and its values accepted) and every transaction
    refers to a person already stored or present in the person frame: the
    persons are written before the transactions. *)
Theorem carregar_dados_succeeds (tc : gmap Z cliente) (tv : gmap Z venda)
    (cs : list cliente) (vs : list venda) :
  is_Some (carregar_dados aceita_cliente aceita_venda
                          (mk_banco (Some tc) (Some tv)) cs vs) <->
  Forall (fun r => cliente_carregavel aceita_cliente r = true) cs /\
  Forall (fun v => venda_carregavel aceita_venda v = true /\
                   (is_Some (tc !! venda_id_cliente v) \/
                    In (venda_id_cliente v) (List.map id_cliente cs))) vs.
Proof.
  rewrite carregar_dados_ok, !forallb_Forall.
  apply and_iff_compat_l. apply Forall_equiv. intros v. cbn beta.
  rewrite andb_true_iff, existe_true, is_Some_gravar. reflexivity.
Qed.

(** After a successful load each key holds the last row of the frame with
    that key, and a key no row of the frame carries holds what it held
    before: a repeated key is overwritten, never duplicated, and no other
    stored row is touched. *)
Theorem carregar_dados_last_write (db db' : banco) (cs : list cliente)
    (vs : list venda) (k : Z) :
  carregar_dados aceita_cliente aceita_venda db cs vs = Some db' ->
  linhas_clientes (Some db') !! k =
  match ultimo (fun r => (id_cliente r =? k)%Z) cs with
  | Some r => Some r
  | None => linhas_clientes (Some db) !! k
  end /\
  linhas_vendas (Some db') !! k =
  match ultimo (fun v => (id_venda v =? k)%Z) vs with
  | Some v => Some v
  | None => linhas_vendas (Some db) !! k
  end.
Proof.
  intros H. apply carregar_dados_Some in H as (tc & tv & -> & -> & _ & _).
  cbn. split; apply lookup_gravar.
Qed.

(** After a successful load the stored keys are those stored before and
    the identifiers of the frames: nothing is deleted. *)
Theorem carregar_dados_keys (db db' : banco) (cs : list cliente)
    (vs : list venda) (k : Z) :
  carregar_dados aceita_cliente aceita_venda db cs vs = Some db' ->
  (is_Some (linhas_clientes (Some db') !! k) <->
   is_Some (linhas_clientes (Some db) !! k) \/
   In k (List.map id_cliente cs)) /\
  (is_Some (linhas_vendas (Some db') !! k) <->
   is_Some (linhas_vendas (Some db) !! k) \/
   In k (List.map id_venda vs)).
Proof.
  intros H. apply carregar_dados_Some in H as (tc & tv & -> & -> & _ & _).
  cbn. split; apply is_Some_gravar.
Qed.

(** Loading the same frames again into the database a successful load
    produced succeeds and leaves that database as it is. *)
Theorem carregar_dados_idempotente (db db' : banco) (cs : list cliente)
    (vs : list venda) :
  carregar_dados aceita_cliente aceita_venda db cs vs = Some db' ->
  carregar_dados aceita_cliente aceita_venda db' cs vs = Some db'.
Proof.
  intros H. apply carregar_dados_Some in H as (tc & tv & -> & -> & Hc & Hv).
  rewrite carregar_dados_eq. rewrite !gravar_twice. rewrite Hc, Hv.
  reflexivity.
Qed.

(** A successful load keeps the foreign key: if every stored transaction
    referred to a stored person before, so it does after. *)
Theorem carregar_dados_integridade (db db' : banco) (cs : list cliente)
    (vs : list venda) :
  integridade_referencial db ->
  carregar_dados aceita_cliente aceita_venda db cs vs = Some db' ->
  integridade_referencial db'.
Proof.
  intros Hint H.
  apply carregar_dados_Some in H as (tc & tv & -> & -> & _ & Hv).
  unfold integridade_referencial in *. cbn in *. intros k v Hk.
  rewrite lookup_gravar in Hk.
  destruct (ultimo _ vs) as [v'|] eqn:E.
  - injection Hk as ->. apply ultimo_Some in E as [Hin _].
    pose proof (proj1 (forallb_forall _ _) Hv v Hin) as Hok.
    cbn beta in Hok. apply andb_true_iff in Hok as [_ Hfk].
    apply existe_true in Hfk. exact Hfk.
  - apply is_Some_gravar. left. exact (Hint k v Hk).
Qed.

(** A frame that did not go through the transformation cannot be loaded:
    a person row without [documento_formatado] or [data_cadastro], or a
    transaction row without [mes_venda], [ano_venda] or [status_venda],
    makes the load fail, whatever the database. *)
Theorem carregar_dados_missing_column (db : banco) (cs : list cliente)
    (vs : list venda) :
  (exists r, In r cs /\
             (documento_formatado r = None \/ data_cadastro r = None)) \/
  (exists v, In v vs /\
             (mes_venda v = None \/ ano_venda v = None \/
              status_venda v = None)) ->
  carregar_dados aceita_cliente aceita_venda db cs vs = None.
Proof.
  intros H.
  destruct (carregar_dados aceita_cliente aceita_venda db cs vs)
    as [db'|] eqn:E; [exfalso | reflexivity].
  apply carregar_dados_Some in E as (tc & tv & _ & _ & Hc & Hv).
  destruct H as [(r & Hin & Hr) | (v & Hin & Hr)].
  - pose proof (proj1 (forallb_forall _ _) Hc r Hin) as Hok.
    unfold cliente_carregavel in Hok.
    destruct Hr as [Hr | Hr]; rewrite Hr in Hok;
      [|destruct (documento_formatado r)]; discriminate.
  - pose proof (proj1 (forallb_forall _ _) Hv v Hin) as Hok.
    cbn beta in Hok. apply andb_true_iff in Hok as [Hok _].
    unfold venda_carregavel in Hok.
    destruct Hr as [Hr | [Hr | Hr]]; rewrite Hr in Hok;
      repeat match type of Hok with
             | context [match ?x with _ => _ end] => destruct x
             end; discriminate.
Qed.

End Banco.

(** * Properties of the whole run *)

Lemma ultimo_map {A B : Type} (f : A -> B) (p : B -> bool) (l : list A) :
  ultimo p (List.map f l) = option_map f (ultimo (fun a => p (f a)) l).
Proof.
  induction l as [|a l IH]; cbn; [reflexivity|].
  rewrite IH. destruct (ultimo _ l); cbn; [reflexivity|].
  destruct (p (f a)); reflexivity.
Qed.

(** What [criar_banco_dados] then [criar_tabelas] leave: both tables, with
    the rows the server held. *)
Lemma criar_tabelas_criar_banco (srv : option banco) :
  criar_tabelas (criar_banco_dados srv) =
  mk_banco (Some (linhas_clientes srv)) (Some (linhas_vendas srv)).
Proof. destruct srv as [[[tc|] [tv|]]|]; reflexivity. Qed.

(** Setting up the database and its tables never discards a stored row:
    the missing database and the missing tables are created empty, the
    existing ones are kept with their rows, and a second set-up changes
    nothing. *)
Lemma criar_tabelas_keeps_rows (srv : option banco) :
  let db := criar_tabelas (criar_banco_dados srv) in
  tb_clientes db = Some (linhas_clientes srv) /\
  tb_vendas db = Some (linhas_vendas srv) /\
  criar_tabelas (criar_banco_dados (Some db)) = db.
Proof. destruct srv as [[[tc|] [tv|]]|]; repeat split. Qed.

Section Execucao.

Variable upper : pystr -> pystr.
Variable lower : pystr -> pystr.
Variable isdigit : N -> bool.
Variable round2 : float -> float.
Variable aceita_cliente : cliente -> bool.
Variable aceita_venda : venda -> bool.

Lemma main_eq (hoje : pystr) (cs : list cliente) (vs : list venda)
    (srv : option banco) :
  main upper lower isdigit round2 aceita_cliente aceita_venda hoje
       (Some (cs, vs)) srv =
  if coluna_de_datas vs then
    let conn := mk_banco (Some (linhas_clientes srv))
                         (Some (linhas_vendas srv)) in
    match carregar_dados aceita_cliente aceita_venda conn
            (List.map (cliente_normalizado upper lower isdigit hoje) cs)
            (List.map (venda_normalizada round2) vs)
    with
    | Some db => (Some db, Sucesso)
    | None => (Some conn, Falha)
    end
  else (srv, Falha).
Proof.
  unfold main. rewrite transformar_dados_rows.
  rewrite criar_tabelas_criar_banco. reflexivity.
Qed.

(** A run on frames read from the spreadsheet ends with status 0 exactly
    when the transaction sheet holds at least one date (otherwise the
    transformation raises), PostgreSQL accepts every normalized row and
    every transaction refers to a person stored before the run or present
    in the person sheet: after the transformation no column is missing. *)
Theorem main_succeeds (hoje : pystr) (cs : list cliente) (vs : list venda)
    (srv : option banco) :
  snd (main upper lower isdigit round2 aceita_cliente aceita_venda hoje
            (Some (cs, vs)) srv) = Sucesso <->
  coluna_de_datas vs = true /\
  Forall (fun r => aceita_cliente
                     (cliente_normalizado upper lower isdigit hoje r) = true)
         cs /\
  Forall (fun v => aceita_venda (venda_normalizada round2 v) = true /\
                   (is_Some (linhas_clientes srv !! venda_id_cliente v) \/
                    In (venda_id_cliente v) (List.map id_cliente cs))) vs.
Proof.
  rewrite main_eq. cbv zeta.
  destruct (coluna_de_datas vs);
    [|cbn; split; [discriminate | intros [[=] _]]].
  match goal with
  | |- ?L <-> true = true /\ ?R =>
      enough (H : L <-> R)
        by (split; [intros X; split; [reflexivity | apply H, X]
                   | intros [_ X]; apply H, X])
  end.
  transitivity
    (is_Some
       (carregar_dados aceita_cliente aceita_venda
          (mk_banco (Some (linhas_clientes srv)) (Some (linhas_vendas srv)))
          (List.map (cliente_normalizado upper lower isdigit hoje) cs)
          (List.map (venda_normalizada round2) vs))).
  { destruct (carregar_dados _ _ _ _ _) as [db|]; cbn; split;
      try discriminate; try reflexivity.
    - intros _. eexists; reflexivity.
    - intros [? [=]]. }
  rewrite carregar_dados_ok, !forallb_Forall, !List.Forall_map.
  apply and_iff_compat_l. apply Forall_equiv. intros v. cbn beta.
  rewrite andb_true_iff, existe_true, is_Some_gravar, map_map.
  reflexivity.
Qed.

(** A successful run stores, under each identifier of the sheets, the
    normalized form of the last row of the sheet with that identifier, and
    leaves every other stored row as it was. *)
Theorem main_stores_normalized (hoje : pystr) (cs : list cliente)
    (vs : list venda) (srv srv' : option banco) (k : Z) :
  main upper lower isdigit round2 aceita_cliente aceita_venda hoje
       (Some (cs, vs)) srv = (srv', Sucesso) ->
  linhas_clientes srv' !! k =
  match ultimo (fun r => (id_cliente r =? k)%Z) cs with
  | Some r => Some (cliente_normalizado upper lower isdigit hoje r)
  | None => linhas_clientes srv !! k
  end /\
  linhas_vendas srv' !! k =
  match ultimo (fun v => (id_venda v =? k)%Z) vs with
  | Some v => Some (venda_normalizada round2 v)
  | None => linhas_vendas srv !! k
  end.
Proof.
  rewrite main_eq. cbv zeta.
  destruct (coluna_de_datas vs); [|discriminate].
  destruct (carregar_dados _ _ _ _ _) as [db|] eqn:E; [|discriminate].
  intros [= <-].
  apply carregar_dados_Some in E as (tc & tv & [= <- <-] & -> & _ & _).
  cbn. rewrite !lookup_gravar, !ultimo_map. cbn.
  split; destruct (ultimo _ _); reflexivity.
Qed.

(** No run loses a stored row: whatever the outcome, every key stored
    before the run is stored after it; and a run that fails leaves the
    stored rows exactly as they were (nothing of a failed load is
    committed). *)
Theorem main_keeps_rows (hoje : pystr)
    (planilha : option (list cliente * list venda)) (srv : option banco) :
  let res := main upper lower isdigit round2 aceita_cliente aceita_venda
                  hoje planilha srv in
  (forall k, is_Some (linhas_clientes srv !! k) ->
             is_Some (linhas_clientes (fst res) !! k)) /\
  (forall k, is_Some (linhas_vendas srv !! k) ->
             is_Some (linhas_vendas (fst res) !! k)) /\
  (snd res = Falha ->
   linhas_clientes (fst res) = linhas_clientes srv /\
   linhas_vendas (fst res) = linhas_vendas srv).
Proof.
  cbv zeta. destruct planilha as [[cs vs]|]; [|cbn; auto].
  rewrite main_eq. cbv zeta.
  destruct (coluna_de_datas vs); [|cbn; auto].
  destruct (carregar_dados _ _ _ _ _) as [db|] eqn:E; cbn [fst snd].
  - apply carregar_dados_Some in E as (tc & tv & [= <- <-] & -> & _ & _).
    cbn. repeat split; try discriminate;
      intros k Hk; apply is_Some_gravar; left; exact Hk.
  - cbn. auto.
Qed.

(** Running the script again on the same day with the same sheets, after a
    successful run, succeeds and leaves the database as the first run left
    it. *)
Theorem main_idempotente (hoje : pystr)
    (planilha : option (list cliente * list venda))
    (srv srv' : option banco) :
  main upper lower isdigit round2 aceita_cliente aceita_venda hoje
       planilha srv = (srv', Sucesso) ->
  main upper lower isdigit round2 aceita_cliente aceita_venda hoje
       planilha srv' = (srv', Sucesso).
Proof.
  destruct planilha as [[cs vs]|]; [|discriminate].
  rewrite !main_eq. cbv zeta.
  destruct (coluna_de_datas vs); [|discriminate].
  destruct (carregar_dados _ _ _ _ _) as [db|] eqn:E; [|discriminate].
  intros [= <-].
  apply carregar_dados_Some in E as (tc & tv & _ & -> & Hc & Hv).
  cbn [linhas_clientes linhas_vendas tb_clientes tb_vendas].
  rewrite carregar_dados_eq, !gravar_twice, Hc, Hv. reflexivity.
Qed.

End Execucao.

(** * The further properties on the sample frames *)

Lemma carregar_dados_ex :
  carregar_dados aceita_cliente_ex aceita_venda_ex banco_sem_linhas
                 clientes_ex vendas_ex = Some banco_ex.
Proof. vm_compute. reflexivity. Qed.

Lemma main_ex :
  main upper_ascii lower_ascii isdigit_ascii np_round2 aceita_cliente_ex
       aceita_venda_ex hoje_ex (Some planilha_ex) None =
  (Some banco_ex, Sucesso).
Proof. vm_compute. reflexivity. Qed.

(** The identifier 1 holds the normalized second row of person 1. *)
Example banco_ex_cliente_1 :
  linhas_clientes (Some banco_ex) !! 1%Z =
  Some (mk_cliente 1 (Str (lit "Ana B")) (Str (lit "ana@x.com"))
                   (Str (lit "123.456.789-01")) (Str FISICA)
                   (Str email_padrao) (Some (Str (lit "123.456.789-01")))
                   (Some hoje_ex)).
Proof. vm_compute. reflexivity. Qed.

(** A transaction of an unknown person makes the load fail. *)
Example carregar_dados_unknown_person :
  carregar_dados aceita_cliente_ex aceita_venda_ex banco_sem_linhas
                 [] vendas_ex = None.
Proof. vm_compute. reflexivity. Qed.

(** A transaction sheet without data row: the transformation raises, the
    run ends with status 1 and the server is left as it was. *)
Example main_sheet_without_rows :
  main upper_ascii lower_ascii isdigit_ascii np_round2 aceita_cliente_ex
       aceita_venda_ex hoje_ex (Some ([ana], [])) None = (None, Falha).
Proof. reflexivity. Qed.

Lemma tipo_contato_normalizado_witness :
  List.map tipo_contato
    (fst (transformar_dados upper_ascii lower_ascii isdigit_ascii np_round2
            hoje_ex [ana; loja; sem_tipo] [])) =
  [Str email_padrao; Str (lit "telefone"); Str email_padrao].
Proof.
  exact (tipo_contato_normalizado upper_ascii lower_ascii isdigit_ascii
           np_round2 (fun _ _ => eq_refl) hoje_ex [ana; loja; sem_tipo] []).
Defined.

Lemma documento_formatado_cpf_witness :
  exists r',
    nth_error clientes_ex 2 = Some r' /\
    tipo_pessoa r' = Str FISICA /\
    documento_formatado r' = Some (Str (lit "123.456.789-01")).
Proof.
  apply (documento_formatado_cpf upper_ascii lower_ascii isdigit_ascii
           np_round2 (fun _ _ => eq_refl) hoje_ex (fst planilha_ex)
           (snd planilha_ex) 2 ana_bis (lit "123.456.789-01")).
  - reflexivity.
  - reflexivity.
  - reflexivity.
  - right. right. exists (lit "fisica"). split; reflexivity.
Defined.

Lemma venda_sem_data_witness :
  exists v',
    nth_error
      (snd (transformar_dados upper_ascii lower_ascii isdigit_ascii np_round2
              hoje_ex [ana] [venda_10; venda_11])) 1 = Some v' /\
    id_venda v' = 11%Z /\
    mes_venda v' = Some IntNaN /\
    ano_venda v' = Some IntNaN /\
    status_venda v' = Some CONCLUIDA.
Proof.
  exact (venda_sem_data upper_ascii lower_ascii isdigit_ascii np_round2
           hoje_ex [ana] [venda_10; venda_11] 1 venda_11
           eq_refl eq_refl).
Defined.

Lemma formatar_documento_keeps_digits_witness :
  exists out,
    formatar_documento isdigit_ascii (Str (lit "12-345-678 0001 95"))
                       (Str JURIDICA) = Str out /\
    List.filter isdigit_ascii out =
    List.filter isdigit_ascii (lit "12-345-678 0001 95").
Proof.
  apply (formatar_documento_keeps_digits isdigit_ascii eq_refl eq_refl
           eq_refl (lit "12-345-678 0001 95") (Str JURIDICA)).
  discriminate.
Defined.

Lemma formatar_documento_twice_witness :
  formatar_documento isdigit_ascii
    (formatar_documento isdigit_ascii (Str (lit "12345678901"))
                        (Str FISICA)) (Str FISICA) =
  Str (lit "123.456.789-01") /\
  formatar_documento isdigit_ascii
    (formatar_documento isdigit_ascii (Str (lit "---")) (Str FISICA))
    (Str FISICA) = PyNone.
Proof.
  split.
  - apply (formatar_documento_twice isdigit_ascii eq_refl eq_refl eq_refl
             (lit "12345678901") (Str FISICA)).
    discriminate.
  - apply (formatar_documento_twice isdigit_ascii eq_refl eq_refl eq_refl
             (lit "---") (Str FISICA)).
    discriminate.
Defined.

Lemma carregar_dados_last_write_witness :
  linhas_clientes (Some banco_ex) !! 1%Z = nth_error clientes_ex 2 /\
  linhas_vendas (Some banco_ex) !! 1%Z = None.
Proof.
  exact (carregar_dados_last_write aceita_cliente_ex aceita_venda_ex
           banco_sem_linhas banco_ex clientes_ex vendas_ex 1%Z
           carregar_dados_ex).
Defined.

Lemma carregar_dados_keys_witness :
  (is_Some (linhas_clientes (Some banco_ex) !! 2%Z) <->
   is_Some (linhas_clientes (Some banco_sem_linhas) !! 2%Z) \/
   In 2%Z (List.map id_cliente clientes_ex)) /\
  (is_Some (linhas_vendas (Some banco_ex) !! 2%Z) <->
   is_Some (linhas_vendas (Some banco_sem_linhas) !! 2%Z) \/
   In 2%Z (List.map id_venda vendas_ex)).
Proof.
  exact (carregar_dados_keys aceita_cliente_ex aceita_venda_ex
           banco_sem_linhas banco_ex clientes_ex vendas_ex 2%Z
           carregar_dados_ex).
Defined.

Lemma carregar_dados_idempotente_witness :
  carregar_dados aceita_cliente_ex aceita_venda_ex banco_ex
                 clientes_ex vendas_ex = Some banco_ex.
Proof.
  exact (carregar_dados_idempotente aceita_cliente_ex aceita_venda_ex
           banco_sem_linhas banco_ex clientes_ex vendas_ex
           carregar_dados_ex).
Defined.

Lemma banco_sem_linhas_integridade :
  integridade_referencial banco_sem_linhas.
Proof. intros k v H. cbn in H. rewrite lookup_empty in H. discriminate. Qed.

Lemma carregar_dados_integridade_witness :
  integridade_referencial banco_ex.
Proof.
  exact (carregar_dados_integridade aceita_cliente_ex aceita_venda_ex
           banco_sem_linhas banco_ex clientes_ex vendas_ex
           banco_sem_linhas_integridade carregar_dados_ex).
Defined.

(** The sheets as read, not transformed. *)
Lemma carregar_dados_missing_column_witness :
  carregar_dados aceita_cliente_ex aceita_venda_ex banco_sem_linhas
                 (fst planilha_ex) (snd planilha_ex) = None.
Proof.
  apply (carregar_dados_missing_column aceita_cliente_ex aceita_venda_ex
           banco_sem_linhas (fst planilha_ex) (snd planilha_ex)).
  left. exists ana. split; [left; reflexivity | left; reflexivity].
Defined.

Lemma main_stores_normalized_witness :
  linhas_clientes (Some banco_ex) !! 2%Z =
  Some (cliente_normalizado upper_ascii lower_ascii isdigit_ascii hoje_ex
          loja) /\
  linhas_vendas (Some banco_ex) !! 2%Z = None.
Proof.
  exact (main_stores_normalized upper_ascii lower_ascii isdigit_ascii
           np_round2 aceita_cliente_ex aceita_venda_ex hoje_ex
           (fst planilha_ex) (snd planilha_ex) None (Some banco_ex) 2%Z
           main_ex).
Defined.

Lemma main_idempotente_witness :
  main upper_ascii lower_ascii isdigit_ascii np_round2 aceita_cliente_ex
       aceita_venda_ex hoje_ex (Some planilha_ex) (Some banco_ex) =
  (Some banco_ex, Sucesso).
Proof.
  exact (main_idempotente upper_ascii lower_ascii isdigit_ascii np_round2
           aceita_cliente_ex aceita_venda_ex hoje_ex (Some planilha_ex)
           None (Some banco_ex) main_ex).
Defined.
